(** * extract_microdroid_kernel_hashes.py: a shallow embedding

    The script runs [avbtool print_partition_digests] on Microdroid's kernel
    image, scrapes [name: digest] lines from its output into a dict, falls
    back to three empty digests when the dict's keys are not exactly the three
    expected partitions, and prints a Rust file with three byte-array
    constants.

    Modelling choices.
    - A Python [str] is a [string]; one character of the model stands for one
      code point.  The program only ever inspects the characters [' '], [':']
      and newline, and otherwise counts and copies characters.
    - The dict [hashes] is a [gmap string string]; [hashes.keys()] is [dom].
    - The child process is an explicit parameter [popen] that maps the argument
      vector to what [subprocess.Popen] and [communicate] deliver.
    - [print] appends to an explicit standard-output trace; an uncaught
      exception ends the run with the trace written so far. *)

From Stdlib Require Import Ascii.
From Stdlib Require String.
From Stdlib Require Import ZifyNat.
From stdpp Require Import base numbers strings list gmap.

Local Open Scope char_scope.
Local Open Scope stdpp_scope.

(** ** Python string primitives *)

Module Py.

(** The newline character and the one-character string holding it. *)
Definition LF : ascii := "010".
Definition nl : string := String LF "".

(** [s.split(sep)] for a one-character separator: never returns the empty
    list; a string without separator is returned whole. *)
Fixpoint split (sep : ascii) (s : string) : list string :=
  match s with
  | EmptyString => [""]
  | String c s' =>
      if decide (c = sep) then "" :: split sep s'
      else match split sep s' with
           | w :: ws => String c w :: ws
           | [] => [String c ""]
           end
  end.

(** [s.replace(old, new)] for a one-character [old]. *)
Fixpoint replace (old : ascii) (new : string) (s : string) : string :=
  match s with
  | EmptyString => ""
  | String c s' =>
      if decide (c = old) then new +:+ replace old new s'
      else String c (replace old new s')
  end.

(** The slice [s[i:j]], clipped to the string as Python clips it. *)
Definition slice (s : string) (i j : nat) : string :=
  String.substring i (j - i) s.

(** [range(start, stop, step)] for a positive step. *)
Fixpoint range_from (fuel start stop step : nat) : list nat :=
  match fuel with
  | 0 => []
  | S fuel' =>
      if decide (start < stop)
      then start :: range_from fuel' (start + step) stop step
      else []
  end.

Definition range (start stop step : nat) : list nat :=
  range_from (stop - start) start stop step.

(** [sep.join(parts)]. *)
Definition join (sep : string) (parts : list string) : string :=
  String.concat sep parts.

End Py.

(** ** Exceptions, the subprocess and standard output *)

Inductive exception : Type :=
| IndexError
| OSError
| UnicodeDecodeError
| KeyError (key : string)
| AssertionError (msg : string).

(** What [subprocess.Popen(...)] followed by [proc.communicate()] and
    [stdout.decode("utf-8")] delivers.  [LaunchFailed]: [Popen] raises
    [OSError] (the tool is missing or cannot be executed).  [Completed rc out]:
    the child ran and ended with return code [rc] (negative when killed by a
    signal); [out] is its combined stdout and stderr decoded as UTF-8, [None]
    when the bytes do not decode. *)
Inductive process : Type :=
| LaunchFailed
| Completed (returncode : Z) (stdout : option string).

(** A computation that prints: it extends the trace of strings written to
    standard output and returns a value or raises. *)
Definition io (A : Type) : Type :=
  list string → list string * (exception + A).

Definition io_ret {A} (a : A) : io A := λ out, (out, inr a).

Definition io_bind {A B} (f : A → io B) (m : io A) : io B :=
  λ out,
    match m out with
    | (out', inl e) => (out', inl e)
    | (out', inr a) => f a out'
    end.

#[global] Instance io_mret : MRet io := @io_ret.
#[global] Instance io_mbind : MBind io := @io_bind.

(** A pure call that returns or raises, run inside [io]. *)
Definition call {A} (r : exception + A) : io A := λ out, (out, r).

(** [print(s)] writes [s] followed by a newline. *)
Definition print (s : string) : io unit :=
  λ out, (out ++ [s +:+ Py.nl], inr tt).

(** [args[i]] on a list. *)
Definition index (args : list string) (i : nat) : exception + string :=
  match args !! i with
  | Some a => inr a
  | None => inl IndexError
  end.

(** [hashes[key]] on a dict. *)
Definition getitem (hashes : gmap string string) (key : string)
  : exception + string :=
  match hashes !! key with
  | Some v => inr v
  | None => inl (KeyError key)
  end.

(** The exit status of the interpreter: 0 after a normal return of [main],
    1 after an uncaught exception. *)
Definition exit_status {A} (r : exception + A) : Z :=
  match r with
  | inr _ => 0
  | inl _ => 1
  end.

(** ** The program *)

Definition PARTITION_NAME_BOOT : string := "boot".
Definition PARTITION_NAME_INITRD_NORMAL : string := "initrd_normal".
Definition PARTITION_NAME_INITRD_DEBUG : string := "initrd_debug".

(** The set literal the key view is compared with in [main]. *)
Definition expected_partitions : gset string :=
  {[ PARTITION_NAME_BOOT; PARTITION_NAME_INITRD_NORMAL;
     PARTITION_NAME_INITRD_DEBUG ]}.

(** *** format_hex_string *)

Definition format_hex_string (hex_string : string) : exception + string :=
  if decide (String.length hex_string mod 2 = 0) then
    inr (Py.join ", "
           ((λ i, if decide (i mod 32 = 0)
                  then String Py.LF "0x" +:+ Py.slice hex_string i (i + 2)
                  else "0x" +:+ Py.slice hex_string i (i + 2))
              <$> Py.range 0 (String.length hex_string) 2))
  else
    inl (AssertionError ("Hex string must have even length: " +:+ hex_string)).

(** *** collect_hashes *)

(** The body of the loop over the lines of the tool's output. *)
Definition collect_line (hashes : gmap string string) (line : string)
  : gmap string string :=
  match Py.split ":" (Py.replace " " "" line) with
  | [partition_name; hash_] => <[partition_name := hash_]> hashes
  | _ => hashes
  end.

(** The loop itself, from the empty dict. *)
Definition parse_output (text : string) : gmap string string :=
  foldl collect_line ∅ (Py.split Py.LF text).

Definition collect_hashes (popen : list string → process)
    (avbtool kernel_image_path : string)
  : exception + gmap string string :=
  match popen [avbtool; "print_partition_digests"; "--image";
               kernel_image_path] with
  | LaunchFailed => inl OSError
  | Completed _ None => inl UnicodeDecodeError
  | Completed _ (Some text) => inr (parse_output text)
  end.

(** *** The fallback of main *)

(** [hashes.keys() != {boot, initrd_normal, initrd_debug}]. *)
Definition fallback_taken (hashes : gmap string string) : bool :=
  bool_decide (dom hashes ≠ expected_partitions).

(** The three assignments of the fallback branch. *)
Definition force_empty (hashes : gmap string string) : gmap string string :=
  <[PARTITION_NAME_INITRD_DEBUG := ""]>
    (<[PARTITION_NAME_INITRD_NORMAL := ""]>
       (<[PARTITION_NAME_BOOT := ""]> hashes)).

(** The dict that reaches the three constant declarations. *)
Definition fallback_policy (hashes : gmap string string)
  : gmap string string :=
  if fallback_taken hashes then force_empty hashes else hashes.

(** *** main *)

Definition unavailable_comment : string :=
  "/// The kernel is empty, no hashes are available.".

(** The text of a constant declaration around the formatted digest. *)
Definition declaration (name body : string) : string :=
  "pub const " +:+ name +:+ ": &[u8] = &[" +:+ body +:+ "];".

(** One of the last three [print] calls: the f-string is evaluated first
    (the lookup and the formatter may raise), then the line is printed. *)
Definition print_constant (name trailer : string)
    (hashes : gmap string string) (key : string) : io unit :=
  digest ← call (getitem hashes key);
  body ← call (format_hex_string digest);
  print (declaration name body +:+ trailer).

Definition main (popen : list string → process) (args : list string)
  : io unit :=
  avbtool ← call (index args 0);
  kernel_image_path ← call (index args 1);
  hashes ← call (collect_hashes popen avbtool kernel_image_path);
  print "//! This file is generated by extract_microdroid_kernel_hashes.py.";;
  print ("//! It contains the hashes of the kernel and initrds." +:+ Py.nl);;
  print ("#![no_std]" +:+ Py.nl +:+ "#![allow(missing_docs)]" +:+ Py.nl);;
  hashes ← (if fallback_taken hashes
            then print unavailable_comment;; mret (force_empty hashes)
            else mret hashes);
  print_constant "KERNEL_HASH" Py.nl hashes PARTITION_NAME_BOOT;;
  print_constant "INITRD_NORMAL_HASH" Py.nl hashes
    PARTITION_NAME_INITRD_NORMAL;;
  print_constant "INITRD_DEBUG_HASH" "" hashes PARTITION_NAME_INITRD_DEBUG.

(** A whole run of the script: standard output starts empty.  The result is
    the trace of strings written and how [main] ended. *)
Definition run (popen : list string → process) (args : list string)
  : list string * (exception + unit) :=
  main popen args [].

(** ** Vocabulary of the specification *)

(** The three strings the first three [print] calls are given. *)
Definition header : list string :=
  [ "//! This file is generated by extract_microdroid_kernel_hashes.py.";
    "//! It contains the hashes of the kernel and initrds." +:+ Py.nl;
    "#![no_std]" +:+ Py.nl +:+ "#![allow(missing_docs)]" +:+ Py.nl ].

(** What standard output holds after printing each of [lines]. *)
Definition printed (lines : list string) : list string :=
  (λ s, s +:+ Py.nl) <$> lines.

(** The expression inside the f-string of a declaration:
    [format_hex_string(hashes[key])]. *)
Definition formatted (hashes : gmap string string) (key : string)
  : exception + string :=
  match getitem hashes key with
  | inl e => inl e
  | inr digest => format_hex_string digest
  end.

(** [c in s]. *)
Fixpoint contains (c : ascii) (s : string) : bool :=
  match s with
  | EmptyString => false
  | String c' s' => bool_decide (c' = c) || contains c s'
  end.

Definition is_hex_digit (c : ascii) : bool :=
  let n := nat_of_ascii c in
  ((48 <=? n) && (n <=? 57) || (97 <=? n) && (n <=? 102)
   || (65 <=? n) && (n <=? 70))%nat.

(** A hex string: every character is one of 0-9, a-f, A-F. *)
Fixpoint hex_string (s : string) : bool :=
  match s with
  | EmptyString => true
  | String c s' => is_hex_digit c && hex_string s'
  end.

(** The byte literal of the [k]-th pair of characters of [h]. *)
Definition byte_token (h : string) (k : nat) : string :=
  "0x" +:+ String.substring (2 * k) 2 h.

(** The byte literals of all the pairs of [h], in order. *)
Definition byte_tokens (h : string) : list string :=
  byte_token h <$> seq 0 (String.length h / 2).

(** The line break the formatter puts before the [k]-th byte literal. *)
Definition line_break (k : nat) : string :=
  if decide (k mod 16 = 0) then Py.nl else "".

(** The formatter's result for the tokens [l] when the first of them belongs
    to byte [i]. *)
Definition joined (i : nat) (l : list string) : string :=
  Py.join ", " (imap (λ k token, line_break (i + k) +:+ token) l).

(** Where the text of byte [i] starts in the formatter's result: every byte
    before it took six characters (token, comma, space), every row of sixteen
    begun before it one more (its line break). *)
Definition row_start (i : nat) : nat := 6 * i + (i + 15) / 16.

(** A token of four characters, none of them a line break. *)
Definition plain_token (token : string) : Prop :=
  String.length token = 4 ∧ contains Py.LF token = false.

(** The number of occurrences of [c] in [s]: [s.count(c)]. *)
Fixpoint count (c : ascii) (s : string) : nat :=
  match s with
  | EmptyString => 0
  | String c' s' => (if decide (c' = c) then 1 else 0) + count c s'
  end.

(** The specification's reading of the line parser: ALL whitespace is removed
    from the line before it is split on the colon. *)
Fixpoint remove_whitespace (s : string) : string :=
  match s with
  | EmptyString => ""
  | String c s' =>
      if Ascii.is_space c then remove_whitespace s'
      else String c (remove_whitespace s')
  end.

Definition collect_line_spec (hashes : gmap string string) (line : string)
  : gmap string string :=
  match Py.split ":" (remove_whitespace line) with
  | [partition_name; hash_] => <[partition_name := hash_]> hashes
  | _ => hashes
  end.

(** The specification's contract of the fallback: the resulting dict has
    exactly the three expected keys. *)
Definition exactly_expected_keys (hashes : gmap string string) : Prop :=
  dom (fallback_policy hashes) = expected_partitions.

(** The tool could not be started, or it ended with a status other than 0. *)
Definition tool_failed (p : process) : Prop :=
  match p with
  | LaunchFailed => True
  | Completed returncode _ => returncode ≠ 0%Z
  end.

(** The specification's reading of subprocess errors: whenever the tool
    failed, the script ends with a non-zero status and has written nothing. *)
Definition tool_failure_is_fatal (popen : list string → process)
    (avbtool kernel_image_path : string) : Prop :=
  tool_failed (popen [avbtool; "print_partition_digests"; "--image";
                      kernel_image_path]) →
  exit_status (run popen [avbtool; kernel_image_path]).2 ≠ 0%Z
  ∧ (run popen [avbtool; kernel_image_path]).1 = [].

(** A tool that prints one diagnostic line and ends with status 1. *)
Definition failing_tool : list string → process :=
  λ _, Completed 1 (Some "avbtool: Given image does not look like a vbmeta image.").

(** Output of a tool that reports the three partitions. *)
Definition three_digests : string :=
  "boot: aa11" +:+ Py.nl +:+ "initrd_normal: bb22" +:+ Py.nl
  +:+ "initrd_debug: cc33" +:+ Py.nl.

(** Output that lacks the debug initrd. *)
Definition two_digests : string :=
  "boot: aa11" +:+ Py.nl +:+ "initrd_normal: bb22" +:+ Py.nl.

(** Output that names a partition outside the expected three. *)
Definition stray_digest : string := "vbmeta: ab".

(** A digest line whose digest is preceded by a tab instead of a space. *)
Definition tab_line : string := "boot:" +:+ String "009" "ab".

(** ** Vocabulary of the further properties *)

(** The loop of [collect_hashes] over the lines, from the dict [hashes]. *)
Definition collect_lines (hashes : gmap string string) (lines : list string)
  : gmap string string :=
  foldl collect_line hashes lines.

(** The characters the collector removes or splits on. *)
Definition delimiter (c : ascii) : Prop :=
  c = " "%char ∨ c = ":"%char ∨ c = Py.LF.

(** The keys the three declarations read, in the order of the [print]
    calls. *)
Definition constant_keys : list string :=
  [ PARTITION_NAME_BOOT; PARTITION_NAME_INITRD_NORMAL;
    PARTITION_NAME_INITRD_DEBUG ].

(** Standard output of a run that stopped inside the declarations: the header
    and the declarations already printed, which can only be the first or the
    first two. *)
Definition partial_file (bodies : list string) : list string :=
  printed (header
           ++ zip_with (λ name body, declaration name body +:+ Py.nl)
                ["KERNEL_HASH"; "INITRD_NORMAL_HASH"] bodies).

(** Standard output of the run that took the fallback branch. *)
Definition fallback_file : list string :=
  printed (header
           ++ [ unavailable_comment;
                declaration "KERNEL_HASH" "" +:+ Py.nl;
                declaration "INITRD_NORMAL_HASH" "" +:+ Py.nl;
                declaration "INITRD_DEBUG_HASH" "" ]).

(** The exception of the formatter's assertion, with its message. *)
Definition odd_length_error (h : string) : exception :=
  AssertionError ("Hex string must have even length: " +:+ h).

(** Output that names the boot partition twice. *)
Definition repeated_digest : string :=
  "boot: aa" +:+ Py.nl +:+ "boot: bb" +:+ Py.nl +:+ "initrd_normal: cc".

(** Output whose digest of the normal initrd has three characters. *)
Definition odd_digest : string :=
  "boot: aa" +:+ Py.nl +:+ "initrd_normal: bbb" +:+ Py.nl
  +:+ "initrd_debug: cc".

(** A tool that answers only to an argument vector of four entries. *)
Definition strict_tool : list string → process :=
  λ argv, if decide (length argv = 4)
          then Completed 0 (Some three_digests) else LaunchFailed.

(** ** Proof automation *)

(** Settles one character position of a formatted text: either the character
    there is not a line break and the position is no multiple of 97, or both
    are. *)
Ltac position :=
  split;
  [ intros Hget;
    first [ discriminate Hget | split; lia | injection Hget as Hget; done ]
  | intros [? ?]; first [ done | lia ] ].

(** Membership of one of the three names in the expected set. *)
Ltac expected_key :=
  unfold expected_partitions;
  rewrite !elem_of_union, !elem_of_singleton; auto.

(** ** Strings: length, append, substring *)

Section string_facts.

(** stdpp keeps [simpl] from unfolding append; these two equations do it. *)
Lemma app_nil_l (t : string) : "" +:+ t = t.
Proof. reflexivity. Qed.

Lemma app_cons (c : ascii) (s t : string) :
  String c s +:+ t = String c (s +:+ t).
Proof. reflexivity. Qed.

Lemma length_app (s t : string) :
  String.length (s +:+ t) = String.length s + String.length t.
Proof.
  induction s as [|c s IH]; [done|].
  rewrite app_cons; simpl; by rewrite IH.
Qed.

Lemma app_assoc_s (s t u : string) : (s +:+ t) +:+ u = s +:+ t +:+ u.
Proof.
  induction s as [|c s IH]; [done|]. by rewrite !app_cons, IH.
Qed.

Lemma app_empty_r (s : string) : s +:+ "" = s.
Proof. induction s as [|c s IH]; [done|]. by rewrite app_cons, IH. Qed.

Lemma get_lt_is_Some (s : string) (i : nat) :
  i < String.length s → is_Some (String.get i s).
Proof.
  revert i; induction s as [|c s IH]; intros [|i] Hi; simpl in *;
    try lia; eauto with lia.
Qed.

(** A two-character slice that lies inside the string is made of the two
    characters at its positions. *)
Lemma substring_pair (s : string) (i : nat) (a b : ascii) :
  String.get i s = Some a → String.get (S i) s = Some b →
  String.substring i 2 s = String a (String b "").
Proof.
  revert i; induction s as [|c s IH]; intros [|i] Ha Hb; simpl in *;
    try done.
  - destruct s as [|c' s]; simplify_eq/=. by destruct s.
  - by apply IH.
Qed.

Lemma contains_app (c : ascii) (s t : string) :
  contains c (s +:+ t) = contains c s || contains c t.
Proof.
  induction s as [|c' s IH]; [done|].
  rewrite app_cons; simpl. by rewrite IH, orb_assoc.
Qed.

Lemma contains_substring (c : ascii) (s : string) (i n : nat) :
  contains c s = false → contains c (String.substring i n s) = false.
Proof.
  revert i n; induction s as [|c' s IH]; intros i n Hs.
  - by destruct i, n.
  - simpl in Hs. apply orb_false_elim in Hs as [Hc Hs].
    destruct i as [|i]; [|by apply IH].
    destruct n as [|n]; simpl; [done|].
    by rewrite Hc, IH.
Qed.

Lemma hex_string_no_LF (s : string) :
  hex_string s = true → contains Py.LF s = false.
Proof.
  induction s as [|c s IH]; simpl; [done|].
  intros [Hc Hs]%andb_true_iff. rewrite IH by done.
  rewrite orb_false_r. apply bool_decide_eq_false. by intros ->.
Qed.

End string_facts.

(** ** Python primitives: range, join, replace, split *)

Section py_facts.

(** [range(start, start + 2*m, 2)] enumerates [start], [start + 2], ...;
    [m] units of fuel are enough. *)
Lemma range_from_step2 (m fuel start : nat) :
  m ≤ fuel →
  Py.range_from fuel start (start + 2 * m) 2
  = (λ k, start + 2 * k) <$> seq 0 m.
Proof.
  revert fuel start; induction m as [|m IH]; intros fuel start Hfuel.
  - destruct fuel; simpl; [done|]. case_decide; [lia | done].
  - destruct fuel as [|fuel]; [lia|]. simpl.
    case_decide; [|lia]. f_equal; [lia|].
    replace (start + S (m + S (m + 0))) with ((start + 2) + 2 * m) by lia.
    rewrite IH by lia. rewrite <- fmap_S_seq, <- list_fmap_compose.
    apply list_fmap_ext; intros _ k _; simpl; lia.
Qed.

Lemma range_even (m : nat) :
  Py.range 0 (2 * m) 2 = (λ k, 2 * k) <$> seq 0 m.
Proof.
  unfold Py.range. exact (range_from_step2 m (2 * m - 0) 0 ltac:(lia)).
Qed.

Lemma join_cons (sep x y : string) (l : list string) :
  Py.join sep (x :: y :: l) = x +:+ sep +:+ Py.join sep (y :: l).
Proof. reflexivity. Qed.

Lemma replace_app (old : ascii) (new s t : string) :
  Py.replace old new (s +:+ t)
  = Py.replace old new s +:+ Py.replace old new t.
Proof.
  induction s as [|c s IH]; [done|].
  rewrite app_cons; simpl. case_decide.
  - by rewrite IH, app_assoc_s.
  - by rewrite IH, app_cons.
Qed.

Lemma replace_absent (old : ascii) (new s : string) :
  contains old s = false → Py.replace old new s = s.
Proof.
  induction s as [|c s IH]; simpl; [done|].
  intros [Hc Hs]%orb_false_elim. apply bool_decide_eq_false in Hc.
  case_decide; [done|]. by rewrite IH.
Qed.

Lemma replace_join (old : ascii) (new sep : string) (l : list string) :
  contains old sep = false →
  Py.replace old new (Py.join sep l)
  = Py.join sep (Py.replace old new <$> l).
Proof.
  intros Hsep. induction l as [|x [|y l] IH]; [done..|].
  rewrite join_cons, !replace_app, IH, (replace_absent _ _ sep) by done.
  reflexivity.
Qed.

End py_facts.

(** ** The hex formatter *)

Section formatter.

Lemma even_length_half (h : string) :
  String.length h mod 2 = 0 → String.length h = 2 * (String.length h / 2).
Proof. intros Hev. pose proof (Nat.div_mod_eq (String.length h) 2). lia. Qed.

(** The list comprehension, indexed by byte position instead of character
    position. *)
Lemma format_hex_string_even (h : string) :
  String.length h mod 2 = 0 →
  format_hex_string h
  = inr (Py.join ", "
           (imap (λ k t, line_break k +:+ t) (byte_tokens h))).
Proof.
  intros Hev. unfold format_hex_string, byte_tokens.
  case_decide; [|done]. do 2 f_equal.
  rewrite (even_length_half h Hev) at 1. rewrite range_even.
  apply list_eq; intros k.
  rewrite list_lookup_imap, !list_lookup_fmap.
  destruct (decide (k < String.length h / 2)) as [Hk|Hk];
    [rewrite lookup_seq_lt by done | by rewrite lookup_seq_ge by lia].
  cbn [fmap option_fmap option_map Nat.add]. f_equal.
  unfold line_break, byte_token, Py.slice, Py.nl.
  replace (2 * k + 2 - 2 * k) with 2 by lia.
  assert (2 * k mod 32 = 2 * (k mod 16)) as Hmod
    by (change 32 with (2 * 16); apply Nat.Div0.mul_mod_distr_l).
  repeat case_decide; try lia; done.
Qed.

Lemma format_hex_string_odd (h : string) :
  String.length h mod 2 ≠ 0 →
  format_hex_string h
  = inl (AssertionError ("Hex string must have even length: " +:+ h)).
Proof. intros Hodd. unfold format_hex_string. by case_decide. Qed.

Lemma length_byte_tokens (h : string) :
  length (byte_tokens h) = String.length h / 2.
Proof. unfold byte_tokens. by rewrite length_fmap, length_seq. Qed.

Lemma lookup_byte_tokens (h : string) (k : nat) :
  k < String.length h / 2 → byte_tokens h !! k = Some (byte_token h k).
Proof.
  intros Hk. unfold byte_tokens.
  by rewrite list_lookup_fmap, lookup_seq_lt.
Qed.

Lemma byte_token_no_LF (h : string) (k : nat) :
  contains Py.LF h = false → contains Py.LF (byte_token h k) = false.
Proof.
  intros Hh. unfold byte_token.
  by rewrite contains_app, contains_substring.
Qed.

Lemma replace_line_break (k : nat) (t : string) :
  contains Py.LF t = false →
  Py.replace Py.LF "" (line_break k +:+ t) = t.
Proof.
  intros Ht. rewrite replace_app, (replace_absent _ _ t) by done.
  unfold line_break. by case_decide.
Qed.

End formatter.

(** ** The line parser *)

Section collector.

Lemma split_nonempty (sep : ascii) (s : string) : Py.split sep s ≠ [].
Proof.
  destruct s as [|c s]; simpl; [done|].
  case_decide; [done|]. by destruct (Py.split sep s).
Qed.

(** A string splits into one segment more than it has separators. *)
Lemma length_split (sep : ascii) (s : string) :
  length (Py.split sep s) = S (count sep s).
Proof.
  induction s as [|c s IH]; simpl; [done|].
  case_decide; simpl; [by rewrite IH|].
  pose proof (split_nonempty sep s).
  destruct (Py.split sep s); [done | by rewrite <- IH].
Qed.

(** Removing the spaces of a line does not touch its colons. *)
Lemma count_replace (c old : ascii) (s : string) :
  c ≠ old → count c (Py.replace old "" s) = count c s.
Proof.
  intros Hne. induction s as [|c' s IH]; simpl; [done|].
  case_decide as Hc'; subst.
  - rewrite app_nil_l, IH. by case_decide.
  - simpl. by rewrite IH.
Qed.

Lemma segments_one_colon (line : string) :
  length (Py.split ":" (Py.replace " " "" line)) = 2 ↔ count ":" line = 1.
Proof. rewrite length_split, count_replace by done. lia. Qed.

Lemma collect_line_pair (hashes : gmap string string) (line name digest : string) :
  Py.split ":" (Py.replace " " "" line) = [name; digest] →
  collect_line hashes line = <[name := digest]> hashes.
Proof. intros Hsplit. unfold collect_line. by rewrite Hsplit. Qed.

Lemma collect_line_skip (hashes : gmap string string) (line : string) :
  length (Py.split ":" (Py.replace " " "" line)) ≠ 2 →
  collect_line hashes line = hashes.
Proof.
  intros Hlen. unfold collect_line.
  destruct (Py.split ":" (Py.replace " " "" line)) as [|a [|b [|c l]]];
    simpl in *; done.
Qed.

End collector.

(** ** The fallback *)

Section fallback.

Lemma fallback_taken_true (hashes : gmap string string) :
  fallback_taken hashes = true ↔ dom hashes ≠ expected_partitions.
Proof. unfold fallback_taken. apply bool_decide_eq_true. Qed.

Lemma fallback_taken_false (hashes : gmap string string) :
  fallback_taken hashes = false ↔ dom hashes = expected_partitions.
Proof.
  unfold fallback_taken. rewrite bool_decide_eq_false.
  split; [apply dec_stable | by auto].
Qed.

Lemma dom_force_empty (hashes : gmap string string) :
  dom (force_empty hashes) = dom hashes ∪ expected_partitions.
Proof.
  unfold force_empty, expected_partitions.
  rewrite !dom_insert_L. apply set_eq; intros name.
  rewrite !elem_of_union. tauto.
Qed.

Lemma lookup_force_empty (hashes : gmap string string) (name : string) :
  name ∈ expected_partitions → force_empty hashes !! name = Some "".
Proof.
  unfold expected_partitions, force_empty.
  rewrite !elem_of_union, !elem_of_singleton.
  intros [[->| ->]| ->];
    repeat (rewrite lookup_insert_eq || rewrite lookup_insert_ne by done);
    done.
Qed.

Lemma lookup_force_empty_other (hashes : gmap string string) (name : string) :
  name ∉ expected_partitions → force_empty hashes !! name = hashes !! name.
Proof.
  unfold expected_partitions, force_empty.
  rewrite !not_elem_of_union, !not_elem_of_singleton.
  intros [[??]?]. by rewrite !lookup_insert_ne.
Qed.

End fallback.

(** ** Runs of the script *)

Section runs.


Lemma print_constant_ok (name trailer key digest body : string)
    (hashes : gmap string string) (stdout : list string) :
  hashes !! key = Some digest →
  format_hex_string digest = inr body →
  print_constant name trailer hashes key stdout
  = (stdout ++ [(declaration name body +:+ trailer) +:+ Py.nl], inr tt).
Proof.
  intros Hkey Hfmt.
  unfold print_constant, mbind, io_mbind, io_bind, call, getitem, print.
  by rewrite Hkey, Hfmt.
Qed.

(** A constant whose lookup or formatting raises prints nothing. *)
Lemma print_constant_raises (name trailer key : string)
    (hashes : gmap string string) (stdout stdout' : list string)
    (e : exception) :
  print_constant name trailer hashes key stdout = (stdout', inl e) →
  stdout' = stdout
  ∧ (getitem hashes key = inl e
     ∨ ∃ digest, hashes !! key = Some digest
                 ∧ format_hex_string digest = inl e).
Proof.
  unfold print_constant, mbind, io_mbind, io_bind, call, getitem, print.
  destruct (hashes !! key) as [digest|]; [|intros [= <- <-]; auto].
  destruct (format_hex_string digest) eqn:Hfmt; [|done].
  intros [= <- <-]; eauto.
Qed.


(** [main] up to the three constants: the arguments are read, the tool is
    run, and only then the header and the comment are printed. *)
Lemma run_unfold (popen : list string → process)
    (avbtool kernel_image_path : string) (rest : list string) :
  run popen (avbtool :: kernel_image_path :: rest)
  = match collect_hashes popen avbtool kernel_image_path with
    | inl e => ([], inl e)
    | inr hashes =>
        (print_constant "KERNEL_HASH" Py.nl (fallback_policy hashes)
           PARTITION_NAME_BOOT;;
         print_constant "INITRD_NORMAL_HASH" Py.nl (fallback_policy hashes)
           PARTITION_NAME_INITRD_NORMAL;;
         print_constant "INITRD_DEBUG_HASH" "" (fallback_policy hashes)
           PARTITION_NAME_INITRD_DEBUG)
          (printed (header ++ if fallback_taken hashes
                              then [unavailable_comment] else []))
    end.
Proof.
  unfold run, main, fallback_policy.
  unfold mbind at 1 2 3, io_mbind, io_bind, call, index; simpl.
  destruct (collect_hashes popen avbtool kernel_image_path) as [e|hashes];
    [done|].
  by destruct (fallback_taken hashes).
Qed.

Lemma run_too_few_args (popen : list string → process)
    (args : list string) :
  length args < 2 → run popen args = ([], inl IndexError).
Proof. destruct args as [|a [|b rest]]; simpl; [done..|lia]. Qed.

(** The return code of the tool does not reach [collect_hashes]. *)
Lemma collect_hashes_ignores_returncode (popen : list string → process)
    (avbtool kernel_image_path : string) (returncode : Z)
    (stdout : option string) :
  popen [avbtool; "print_partition_digests"; "--image"; kernel_image_path]
  = Completed returncode stdout →
  collect_hashes popen avbtool kernel_image_path
  = collect_hashes (λ _, Completed 0 stdout) avbtool kernel_image_path.
Proof. intros Hp. unfold collect_hashes. by rewrite Hp. Qed.

End runs.

(** ** Where the line breaks are *)

Section line_positions.

Lemma length_substring (s : string) (i n : nat) :
  i + n ≤ String.length s → String.length (String.substring i n s) = n.
Proof.
  revert i n; induction s as [|c s IH]; intros [|i] [|n] Hlen;
    simpl in *; try lia; try done.
  - by rewrite IH by lia.
  - by rewrite IH by lia.
  - by rewrite IH by lia.
Qed.

Lemma byte_tokens_plain (h : string) :
  String.length h mod 2 = 0 → contains Py.LF h = false →
  Forall plain_token (byte_tokens h).
Proof.
  intros Hev Hh. apply Forall_forall; intros token Htoken.
  apply list_elem_of_fmap in Htoken as (k & -> & Hk).
  apply elem_of_seq in Hk. split; [|by apply byte_token_no_LF].
  unfold byte_token. rewrite length_app, length_substring; [done|].
  pose proof (even_length_half h Hev). lia.
Qed.

Lemma plain_token_chars (token : string) :
  plain_token token →
  ∃ a b c d,
    token = String a (String b (String c (String d "")))
    ∧ a ≠ Py.LF ∧ b ≠ Py.LF ∧ c ≠ Py.LF ∧ d ≠ Py.LF.
Proof.
  intros [Hlen Hlf].
  destruct token as [|a [|b [|c [|d [|e token]]]]]; simplify_eq/=.
  exists a, b, c, d. split; [done|].
  repeat (apply orb_false_elim in Hlf as [?%bool_decide_eq_false Hlf]).
  done.
Qed.

Lemma joined_one (i : nat) (token : string) :
  joined i [token] = line_break i +:+ token.
Proof. unfold joined. simpl. by rewrite Nat.add_0_r. Qed.

Lemma joined_cons (i : nat) (token token' : string) (l : list string) :
  joined i (token :: token' :: l)
  = line_break i +:+ token +:+ ", " +:+ joined (S i) (token' :: l).
Proof.
  unfold joined. rewrite imap_cons, Nat.add_0_r.
  rewrite (imap_ext _ (λ k t, line_break (S i + k) +:+ t)).
  2:{ intros k x _. simpl. by rewrite Nat.add_succ_r. }
  rewrite imap_cons, join_cons. by rewrite app_assoc_s.
Qed.

Lemma row_start_S (i : nat) :
  row_start (S i) = row_start i + String.length (line_break i) + 6.
Proof.
  unfold row_start, line_break.
  case_decide; [change (String.length Py.nl) with 1
               | change (String.length "") with 0]; lia.
Qed.

(** In the text of plain tokens from byte [i] on, the line breaks sit where
    the position counted from byte 0 is a multiple of 97. *)
Lemma joined_line_breaks (l : list string) (i p : nat) :
  Forall plain_token l →
  String.get p (joined i l) = Some Py.LF
  ↔ p < String.length (joined i l) ∧ (row_start i + p) mod 97 = 0.
Proof.
  intros Hl. revert i p. induction Hl as [|t l Ht Hl IH]; intros i p.
  { unfold joined; simpl. split; [by destruct p | lia]. }
  apply plain_token_chars in Ht as (a & b & c & d & -> & ? & ? & ? & ?).
  destruct l as [|t' l].
  - rewrite joined_one. unfold row_start, line_break.
    case_decide; unfold Py.nl;
      repeat (rewrite app_cons || rewrite app_nil_l).
    + destruct p as [|[|[|[|[|p]]]]]; cbn [String.get String.length];
        position.
    + destruct p as [|[|[|[|p]]]]; cbn [String.get String.length];
        position.
  - rewrite joined_cons.
    specialize (IH (S i)). rewrite row_start_S in IH.
    revert IH. generalize (joined (S i) (t' :: l)); intros rest IH.
    unfold row_start, line_break in *.
    case_decide; unfold Py.nl in *;
      repeat (rewrite app_cons || rewrite app_nil_l);
      simpl String.length in *.
    + destruct p as [|[|[|[|[|[|[|p]]]]]]]; cbn [String.get String.length];
        try position.
      rewrite (IH p). split; intros [? ?]; split; try lia.
      all: replace (6 * i + (i + 15) `div` 16 + 1 + 6 + p)
             with (6 * i + (i + 15) `div` 16 + S (S (S (S (S (S (S p)))))))
             in * by lia; done.
    + destruct p as [|[|[|[|[|[|p]]]]]]; cbn [String.get String.length];
        try position.
      rewrite (IH p). split; intros [? ?]; split; try lia.
      all: replace (6 * i + (i + 15) `div` 16 + 0 + 6 + p)
             with (6 * i + (i + 15) `div` 16 + S (S (S (S (S (S p))))))
             in * by lia; done.
Qed.

(** Observed on the result: the line breaks of a formatted even-length hex
    string are at the positions 0, 97, 194, ... of the result, the starts of
    its rows of sixteen bytes, and nowhere else. *)
Corollary line_break_positions (h out : string) (p : nat) :
  hex_string h = true →
  format_hex_string h = inr out →
  String.get p out = Some Py.LF ↔ p < String.length out ∧ p mod 97 = 0.
Proof.
  intros Hhex%hex_string_no_LF Hout.
  destruct (decide (String.length h mod 2 = 0)) as [Hev|Hodd];
    [|by rewrite format_hex_string_odd in Hout].
  rewrite format_hex_string_even in Hout by done. injection Hout as <-.
  pose proof (joined_line_breaks (byte_tokens h) 0 p
                (byte_tokens_plain h Hev Hhex)) as Hpos.
  unfold joined in Hpos. by rewrite Hpos.
Qed.

End line_positions.

(** ** The claims *)

(** *** Fallback policy *)

(** C1.  When the key set of the collected dict is exactly
    {boot, initrd_normal, initrd_debug}, the fallback returns the dict
    unchanged; for every other key set each of the three expected names is
    mapped to the empty string, whatever digests the input held. *)
Theorem fallback_policy_all_or_nothing (hashes : gmap string string) :
  (dom hashes = expected_partitions → fallback_policy hashes = hashes)
  ∧ (dom hashes ≠ expected_partitions →
     ∀ name, name ∈ expected_partitions →
             fallback_policy hashes !! name = Some "").
Proof.
  unfold fallback_policy. split.
  - intros Hdom%fallback_taken_false. by rewrite Hdom.
  - intros Hdom%fallback_taken_true name Hname. rewrite Hdom.
    by apply lookup_force_empty.
Qed.

Lemma fallback_policy_all_or_nothing_witness :
  fallback_policy (parse_output three_digests) = parse_output three_digests
  ∧ ∀ name, name ∈ expected_partitions →
            fallback_policy (parse_output two_digests) !! name = Some "".
Proof.
  split.
  - apply (proj1 (fallback_policy_all_or_nothing (parse_output three_digests))).
    vm_compute. reflexivity.
  - apply (proj2 (fallback_policy_all_or_nothing (parse_output two_digests))).
    vm_compute. discriminate.
Defined.

(** C2 as the specification words it fails: a key outside the expected three
    stays in the dict after the fallback branch. *)
Lemma stray_key_survives_fallback :
  ¬ exactly_expected_keys (parse_output stray_digest).
Proof. vm_compute. discriminate. Qed.

(** C2, amended.  The dict after the fallback always holds the three expected
    names.  When the key set already is the expected one these are all its
    keys; when the fallback branch is taken the keys of the input are all
    kept, with their digests when they are not among the expected three. *)
Theorem fallback_policy_keys (hashes : gmap string string) :
  expected_partitions ⊆ dom (fallback_policy hashes)
  ∧ (dom hashes = expected_partitions →
     dom (fallback_policy hashes) = expected_partitions)
  ∧ (dom hashes ≠ expected_partitions →
     dom (fallback_policy hashes) = dom hashes ∪ expected_partitions
     ∧ ∀ name, name ∉ expected_partitions →
               fallback_policy hashes !! name = hashes !! name).
Proof.
  unfold fallback_policy. split; [|split].
  - destruct (fallback_taken hashes) eqn:Htaken.
    + rewrite dom_force_empty. apply union_subseteq_r.
    + apply fallback_taken_false in Htaken. by rewrite Htaken.
  - intros Hdom. by rewrite (proj2 (fallback_taken_false hashes) Hdom).
  - intros Hdom. rewrite (proj2 (fallback_taken_true hashes) Hdom).
    split; [apply dom_force_empty|]. apply lookup_force_empty_other.
Qed.

Lemma fallback_policy_keys_witness :
  dom (fallback_policy (parse_output three_digests)) = expected_partitions
  ∧ dom (fallback_policy (parse_output stray_digest))
    = dom (parse_output stray_digest) ∪ expected_partitions.
Proof.
  split.
  - apply (proj1 (proj2 (fallback_policy_keys (parse_output three_digests)))).
    vm_compute. reflexivity.
  - apply (proj2 (proj2 (fallback_policy_keys (parse_output stray_digest)))).
    vm_compute. discriminate.
Defined.

(** *** Digest collector *)

(** C3 as the specification words it fails: only the space character is
    removed from a line, so a tab next to the colon stays in the digest. *)
Lemma tab_is_not_removed :
  collect_line ∅ tab_line ≠ collect_line_spec ∅ tab_line
  ∧ collect_line_spec ∅ tab_line !! "boot" = Some "ab"
  ∧ collect_line ∅ tab_line !! "boot" = Some (String "009" "ab").
Proof. vm_compute. split; [discriminate | done]. Qed.

(** C3, amended.  The parser adds a (name, digest) pair exactly when the
    line, with its space characters removed (tabs, carriage returns and other
    whitespace are kept), splits on the colon into two segments, which is when
    the line holds exactly one colon; the segments are the name and the
    digest.  Any other line leaves the dict as it was. *)
Theorem collect_line_two_segments (hashes : gmap string string)
    (line : string) :
  (∀ name digest,
     Py.split ":" (Py.replace " " "" line) = [name; digest] →
     collect_line hashes line = <[name := digest]> hashes)
  ∧ (length (Py.split ":" (Py.replace " " "" line)) ≠ 2 →
     collect_line hashes line = hashes)
  ∧ (length (Py.split ":" (Py.replace " " "" line)) = 2
     ↔ count ":" line = 1).
Proof.
  split; [|split].
  - intros name digest. apply collect_line_pair.
  - apply collect_line_skip.
  - apply segments_one_colon.
Qed.

Lemma collect_line_two_segments_witness :
  collect_line ∅ "boot: aa11" = <["boot" := "aa11"]> ∅
  ∧ collect_line ∅ "Partition digests: sha256: 00" = ∅.
Proof.
  split.
  - apply (proj1 (collect_line_two_segments ∅ "boot: aa11")). reflexivity.
  - apply (proj1 (proj2 (collect_line_two_segments ∅
                           "Partition digests: sha256: 00"))).
    vm_compute. lia.
Defined.

(** C10.  The line made of a single colon splits into two empty segments and
    is accepted: the empty name is mapped to the empty digest.  Neither
    segment has to be non-empty. *)
Theorem empty_segments_accepted :
  ∃ line,
    Py.split ":" (Py.replace " " "" line) = [""; ""]
    ∧ (∀ hashes, collect_line hashes line = <["" := ""]> hashes)
    ∧ parse_output line !! "" = Some "".
Proof.
  exists ":". split; [reflexivity|]. split; [|reflexivity].
  intros hashes. by apply collect_line_pair.
Qed.

(** *** Subprocess errors *)

(** C4 as the specification words it fails: a tool that prints a diagnostic
    and ends with status 1 does not stop the script; the diagnostic is parsed
    like any output, the fallback is taken, and the run ends normally with the
    whole file written. *)
Lemma nonzero_exit_is_absorbed :
  ¬ tool_failure_is_fatal failing_tool "avbtool" "kernel.img".
Proof.
  intros Hfatal. destruct Hfatal as [Hstatus _].
  - vm_compute. discriminate.
  - apply Hstatus. vm_compute. reflexivity.
Qed.

(** C4, amended.  When the tool cannot be launched the script ends with
    [OSError], exit status 1, and has written nothing.  When the tool was
    launched its return code is not looked at: the run is the one the same
    captured output gives with return code 0. *)
Theorem launch_failure_is_fatal (popen : list string → process)
    (avbtool kernel_image_path : string) (rest : list string) :
  (popen [avbtool; "print_partition_digests"; "--image"; kernel_image_path]
   = LaunchFailed →
   run popen (avbtool :: kernel_image_path :: rest) = ([], inl OSError)
   ∧ exit_status (run popen (avbtool :: kernel_image_path :: rest)).2 = 1%Z)
  ∧ (∀ returncode stdout,
       popen [avbtool; "print_partition_digests"; "--image";
              kernel_image_path]
       = Completed returncode stdout →
       run popen (avbtool :: kernel_image_path :: rest)
       = run (λ _, Completed 0 stdout) (avbtool :: kernel_image_path :: rest)).
Proof.
  split.
  - intros Hp. rewrite run_unfold. unfold collect_hashes. by rewrite Hp.
  - intros returncode stdout Hp. rewrite !run_unfold.
    by rewrite (collect_hashes_ignores_returncode _ _ _ _ _ Hp).
Qed.

Lemma launch_failure_is_fatal_witness :
  run (λ _, LaunchFailed) ["avbtool"; "kernel.img"] = ([], inl OSError)
  ∧ run failing_tool ["avbtool"; "kernel.img"]
    = run (λ _, Completed 0
                  (Some "avbtool: Given image does not look like a vbmeta image."))
        ["avbtool"; "kernel.img"].
Proof.
  split.
  - apply (proj1 (launch_failure_is_fatal (λ _, LaunchFailed)
                    "avbtool" "kernel.img" [])).
    reflexivity.
  - apply (proj2 (launch_failure_is_fatal failing_tool
                    "avbtool" "kernel.img" []) 1%Z).
    reflexivity.
Defined.

(** *** Hex formatter *)

(** C5.  For an even-length hex string [h] the formatter returns a string
    that, line breaks aside, is the byte tokens of [h] joined by ", ": there
    are [len(h)/2] of them, and the [k]-th is "0x" followed by the characters
    [h[2k]] and [h[2k+1]], so the pairs keep their order. *)
Theorem format_hex_string_tokens (h : string) :
  hex_string h = true →
  String.length h mod 2 = 0 →
  ∃ out,
    format_hex_string h = inr out
    ∧ Py.replace Py.LF "" out = Py.join ", " (byte_tokens h)
    ∧ length (byte_tokens h) = String.length h / 2
    ∧ ∀ k, k < String.length h / 2 →
        ∃ a b,
          String.get (2 * k) h = Some a
          ∧ String.get (2 * k + 1) h = Some b
          ∧ byte_tokens h !! k
            = Some (String "0" (String "x" (String a (String b "")))).
Proof.
  intros Hhex%hex_string_no_LF Hev. eexists. split; [|split; [|split]].
  - by apply format_hex_string_even.
  - rewrite replace_join by done. f_equal.
    apply list_eq; intros k.
    rewrite list_lookup_fmap, list_lookup_imap.
    destruct (byte_tokens h !! k) as [t|] eqn:Hk; [|done]. simpl. f_equal.
    apply replace_line_break.
    apply lookup_lt_Some in Hk as Hlt. rewrite length_byte_tokens in Hlt.
    rewrite lookup_byte_tokens in Hk by done. injection Hk as <-.
    by apply byte_token_no_LF.
  - apply length_byte_tokens.
  - intros k Hk. pose proof (even_length_half h Hev) as Hlen.
    destruct (get_lt_is_Some h (2 * k)) as [a Ha]; [lia|].
    destruct (get_lt_is_Some h (2 * k + 1)) as [b Hb]; [lia|].
    exists a, b. split; [done|]. split; [done|].
    rewrite lookup_byte_tokens by done. f_equal. unfold byte_token.
    rewrite (substring_pair h (2 * k) a b); [done..|].
    by replace (S (2 * k)) with (2 * k + 1) by lia.
Qed.

Lemma format_hex_string_tokens_witness :
  ∃ out,
    format_hex_string "aa11" = inr out
    ∧ Py.replace Py.LF "" out = Py.join ", " (byte_tokens "aa11")
    ∧ length (byte_tokens "aa11") = String.length "aa11" / 2
    ∧ ∀ k, k < String.length "aa11" / 2 →
        ∃ a b,
          String.get (2 * k) "aa11" = Some a
          ∧ String.get (2 * k + 1) "aa11" = Some b
          ∧ byte_tokens "aa11" !! k
            = Some (String "0" (String "x" (String a (String b "")))).
Proof. apply (format_hex_string_tokens "aa11"); reflexivity. Defined.

(** C6.  For an even-length hex string the formatter's result is the byte
    tokens joined by ", ", where the token of byte [k] is preceded by a line
    break when [k] is a multiple of 16 and by nothing otherwise; neither the
    tokens nor the separator hold a line break, so there is none elsewhere.
    Counted in characters of the result: a row of sixteen bytes takes 97
    characters, and the line breaks are exactly at the multiples of 97. *)
Theorem format_hex_string_line_breaks (h : string) :
  hex_string h = true →
  String.length h mod 2 = 0 →
  format_hex_string h
  = inr (Py.join ", "
           (imap (λ k token, if decide (k mod 16 = 0)
                             then Py.nl +:+ token else token)
              (byte_tokens h)))
  ∧ contains Py.LF ", " = false
  ∧ Forall (λ token, contains Py.LF token = false) (byte_tokens h)
  ∧ ∀ out p,
      format_hex_string h = inr out →
      String.get p out = Some Py.LF
      ↔ p < String.length out ∧ p mod 97 = 0.
Proof.
  intros Hhex Hev. pose proof (hex_string_no_LF h Hhex) as Hlf.
  split; [|split; [done|split]].
  - rewrite format_hex_string_even by done. do 2 f_equal.
    apply imap_ext; intros k token _. unfold line_break. by case_decide.
  - apply Forall_forall; intros token Htoken.
    apply list_elem_of_fmap in Htoken as (k & -> & _).
    by apply byte_token_no_LF.
  - intros out p Hout. by apply (line_break_positions h).
Qed.

Lemma format_hex_string_line_breaks_witness :
  format_hex_string
    "000102030405060708090a0b0c0d0e0f101112131415161718191A1B1C1D1E1F2021"
  = inr (Py.join ", "
           (imap (λ k token, if decide (k mod 16 = 0)
                             then Py.nl +:+ token else token)
              (byte_tokens
                 "000102030405060708090a0b0c0d0e0f101112131415161718191A1B1C1D1E1F2021")))
  ∧ contains Py.LF ", " = false
  ∧ Forall (λ token, contains Py.LF token = false)
      (byte_tokens
         "000102030405060708090a0b0c0d0e0f101112131415161718191A1B1C1D1E1F2021")
  ∧ ∀ out p,
      format_hex_string
        "000102030405060708090a0b0c0d0e0f101112131415161718191A1B1C1D1E1F2021"
      = inr out →
      String.get p out = Some Py.LF
      ↔ p < String.length out ∧ p mod 97 = 0.
Proof.
  apply (format_hex_string_line_breaks
           "000102030405060708090a0b0c0d0e0f101112131415161718191A1B1C1D1E1F2021");
    reflexivity.
Defined.

(** C7.  The formatter raises [AssertionError] exactly when its argument has
    odd length, and returns a string exactly when the length is even (the
    empty string included).  The assertion comes first: the [print] call whose
    argument holds the failing formatter call writes nothing. *)
Theorem format_hex_string_assertion (h : string) :
  ((∃ msg, format_hex_string h = inl (AssertionError msg))
   ↔ String.length h mod 2 = 1)
  ∧ ((∃ out, format_hex_string h = inr out) ↔ String.length h mod 2 = 0)
  ∧ (String.length h mod 2 = 1 →
     ∀ (name trailer key : string) (hashes : gmap string string)
       (stdout : list string),
       hashes !! key = Some h →
       print_constant name trailer hashes key stdout
       = (stdout,
          inl (AssertionError ("Hex string must have even length: " +:+ h)))).
Proof.
  pose proof (Nat.mod_upper_bound (String.length h) 2 ltac:(lia)) as Hlt.
  destruct (decide (String.length h mod 2 = 0)) as [Hev|Hodd].
  - rewrite format_hex_string_even by done.
    split; [|split]; [split|split|]; try lia; try (by intros [? ?]); eauto.
  - rewrite format_hex_string_odd by done.
    split; [|split]; [split|split|]; try lia; try (by intros [? ?]); eauto.
    intros _ name trailer key hashes stdout Hkey.
    unfold print_constant, mbind, io_mbind, io_bind, call, getitem.
    by rewrite Hkey, format_hex_string_odd.
Qed.

Lemma format_hex_string_assertion_witness :
  print_constant "KERNEL_HASH" Py.nl {["boot" := "abc"]} "boot" []
  = ([], inl (AssertionError "Hex string must have even length: abc")).
Proof.
  apply (proj2 (proj2 (format_hex_string_assertion "abc")));
    reflexivity.
Defined.

(** C8.  The formatter maps the empty string to the empty string: no token,
    no line break, no error. *)
Theorem format_hex_string_empty :
  format_hex_string "" = inr "" ∧ byte_tokens "" = [].
Proof. split; reflexivity. Qed.

(** *** Emitter *)



(** ** Further properties of the three functions *)

Section collector_more.

Lemma parse_output_lines (text : string) :
  parse_output text = collect_lines ∅ (Py.split Py.LF text).
Proof. reflexivity. Qed.

Lemma split_no_sep (sep : ascii) (s w : string) :
  w ∈ Py.split sep s → contains sep w = false.
Proof.
  revert w; induction s as [|c s IH]; intros w; simpl.
  - by intros ->%list_elem_of_singleton.
  - case_decide as Hc.
    + intros [->|Hw]%elem_of_cons; [done | by apply IH].
    + pose proof (split_nonempty sep s) as Hne.
      destruct (Py.split sep s) as [|w0 ws]; [done|].
      intros [->|Hw]%elem_of_cons.
      * simpl. rewrite (IH w0) by apply list_elem_of_here.
        rewrite orb_false_r. by apply bool_decide_eq_false.
      * apply IH. by apply list_elem_of_further.
Qed.

Lemma split_keeps_absent (c sep : ascii) (s w : string) :
  contains c s = false → w ∈ Py.split sep s → contains c w = false.
Proof.
  revert w; induction s as [|c' s IH]; intros w; simpl.
  - by intros _ ->%list_elem_of_singleton.
  - intros [Hc Hs]%orb_false_elim.
    destruct (decide (c' = sep)) as [Hsep|Hsep].
    + intros [->|Hw]%elem_of_cons; [done | by apply IH].
    + pose proof (split_nonempty sep s) as Hne.
      destruct (Py.split sep s) as [|w0 ws]; [done|].
      intros [->|Hw]%elem_of_cons.
      * simpl. rewrite Hc. apply IH; [done | apply list_elem_of_here].
      * apply IH; [done | by apply list_elem_of_further].
Qed.

Lemma replace_removes (old : ascii) (s : string) :
  contains old (Py.replace old "" s) = false.
Proof.
  induction s as [|c s IH]; simpl; [done|].
  case_decide as Hc; [by rewrite app_nil_l|].
  simpl. rewrite IH, orb_false_r. by apply bool_decide_eq_false.
Qed.

Lemma replace_keeps_absent (c old : ascii) (s : string) :
  contains c s = false → contains c (Py.replace old "" s) = false.
Proof.
  induction s as [|c' s IH]; simpl; [done|].
  intros [Hc Hs]%orb_false_elim.
  destruct (decide (c' = old)); [rewrite app_nil_l; by apply IH|].
  simpl. by rewrite Hc, IH.
Qed.

(** The two segments of an accepted line hold no space, colon or newline,
    provided the line itself holds no newline. *)
Lemma segments_clean (line name digest : string) (c : ascii) :
  contains Py.LF line = false → delimiter c →
  Py.split ":" (Py.replace " " "" line) = [name; digest] →
  contains c name = false ∧ contains c digest = false.
Proof.
  intros Hline Hc Hsplit.
  assert (∀ w, w ∈ [name; digest] → contains c w = false) as Hw.
  { intros w Hin. rewrite <- Hsplit in Hin.
    destruct Hc as [->|[->| ->]].
    - eapply split_keeps_absent; [apply replace_removes | done].
    - by eapply split_no_sep.
    - eapply split_keeps_absent; [by apply replace_keeps_absent | done]. }
  split; apply Hw; set_solver.
Qed.

Lemma collect_line_lookup (hashes : gmap string string)
    (line name digest : string) :
  collect_line hashes line !! name = Some digest →
  hashes !! name = Some digest
  ∨ Py.split ":" (Py.replace " " "" line) = [name; digest].
Proof.
  unfold collect_line.
  destruct (Py.split ":" (Py.replace " " "" line)) as [|n [|d [|x l]]];
    auto.
  destruct (decide (n = name)) as [->|Hne].
  - rewrite lookup_insert_eq. intros [= ->]. by right.
  - rewrite lookup_insert_ne by done. by left.
Qed.

Lemma collect_lines_lookup (lines : list string)
    (hashes : gmap string string) (name digest : string) :
  collect_lines hashes lines !! name = Some digest →
  hashes !! name = Some digest
  ∨ ∃ line, line ∈ lines
            ∧ Py.split ":" (Py.replace " " "" line) = [name; digest].
Proof.
  revert hashes; induction lines as [|line lines IH]; intros hashes;
    simpl; [by left|].
  intros [Hin|(l & Hl & Hsplit)]%IH.
  - apply collect_line_lookup in Hin as [?|?]; [by left|].
    right. exists line. split; [apply list_elem_of_here | done].
  - right. exists l. split; [by apply list_elem_of_further | done].
Qed.

Lemma collect_line_keeps (hashes : gmap string string) (line name : string) :
  is_Some (hashes !! name) → is_Some (collect_line hashes line !! name).
Proof.
  intros Hsome. unfold collect_line.
  destruct (Py.split ":" (Py.replace " " "" line)) as [|n [|d [|x l]]];
    try done.
  destruct (decide (n = name)) as [->|Hne].
  - rewrite lookup_insert_eq. eauto.
  - by rewrite lookup_insert_ne.
Qed.

Lemma collect_lines_keeps (lines : list string)
    (hashes : gmap string string) (name : string) :
  is_Some (hashes !! name) → is_Some (collect_lines hashes lines !! name).
Proof.
  revert hashes; induction lines as [|line lines IH]; intros hashes Hsome;
    simpl; [done|].
  by apply IH, collect_line_keeps.
Qed.

Lemma collect_line_other (hashes : gmap string string)
    (line name : string) :
  (∀ digest, Py.split ":" (Py.replace " " "" line) ≠ [name; digest]) →
  collect_line hashes line !! name = hashes !! name.
Proof.
  intros Hne. unfold collect_line.
  destruct (Py.split ":" (Py.replace " " "" line)) as [|n [|d [|x l]]];
    try done.
  rewrite lookup_insert_ne; [done|]. intros ->. by apply (Hne d).
Qed.

Lemma collect_lines_other (lines : list string)
    (hashes : gmap string string) (name : string) :
  (∀ line digest, line ∈ lines →
     Py.split ":" (Py.replace " " "" line) ≠ [name; digest]) →
  collect_lines hashes lines !! name = hashes !! name.
Proof.
  revert hashes; induction lines as [|line lines IH]; intros hashes Hne;
    simpl; [done|].
  rewrite IH.
  - apply collect_line_other. intros digest.
    apply Hne, list_elem_of_here.
  - intros l d Hl. apply Hne. by apply list_elem_of_further.
Qed.

Lemma collect_lines_app (before after : list string)
    (hashes : gmap string string) :
  collect_lines hashes (before ++ after)
  = collect_lines (collect_lines hashes before) after.
Proof. apply foldl_app. Qed.

End collector_more.

Section spaces.

Lemma replace_idemp (old : ascii) (s : string) :
  Py.replace old "" (Py.replace old "" s) = Py.replace old "" s.
Proof. apply replace_absent, replace_removes. Qed.

(** Removing a character other than the separator commutes with
    splitting. *)
Lemma split_replace (sep old : ascii) (s : string) :
  sep ≠ old →
  Py.split sep (Py.replace old "" s) = Py.replace old "" <$> Py.split sep s.
Proof.
  intros Hne. induction s as [|c s IH]; simpl; [done|].
  destruct (decide (c = old)) as [->|Hold].
  - rewrite app_nil_l, IH. destruct (decide (old = sep)); [congruence|].
    pose proof (split_nonempty sep s).
    destruct (Py.split sep s) as [|w ws]; [done|]. simpl.
    by destruct (decide (old = old)).
  - simpl. destruct (decide (c = sep)) as [->|Hsep]; simpl.
    + by rewrite IH.
    + rewrite IH. pose proof (split_nonempty sep s).
      destruct (Py.split sep s) as [|w ws]; [done|]. simpl.
      by destruct (decide (c = old)).
Qed.

Lemma collect_line_spaces (hashes : gmap string string) (line : string) :
  collect_line hashes (Py.replace " " "" line) = collect_line hashes line.
Proof. unfold collect_line. by rewrite replace_idemp. Qed.

Lemma collect_lines_spaces (lines : list string)
    (hashes : gmap string string) :
  collect_lines hashes (Py.replace " " "" <$> lines)
  = collect_lines hashes lines.
Proof.
  revert hashes; induction lines as [|line lines IH]; intros hashes;
    simpl; [done|].
  rewrite collect_line_spaces. apply IH.
Qed.

End spaces.

Section formatter_more.

Lemma byte_tokens_four (h : string) :
  String.length h mod 2 = 0 →
  Forall (λ token, String.length token = 4) (byte_tokens h).
Proof.
  intros Hev. apply Forall_forall; intros token Htoken.
  apply list_elem_of_fmap in Htoken as (k & -> & Hk).
  apply elem_of_seq in Hk.
  unfold byte_token. rewrite length_app, length_substring; [done|].
  pose proof (even_length_half h Hev). lia.
Qed.

Lemma byte_tokens_cons (a b : ascii) (h : string) :
  byte_tokens (String a (String b h))
  = String "0" (String "x" (String a (String b ""))) :: byte_tokens h.
Proof.
  unfold byte_tokens. cbn [String.length].
  replace (S (S (String.length h)) / 2) with (S (String.length h / 2))
    by lia.
  cbn [seq fmap list_fmap]. f_equal.
  - unfold byte_token. simpl. by destruct h.
  - rewrite <- fmap_S_seq, <- list_fmap_compose.
    apply list_fmap_ext; intros _ k _. unfold byte_token; simpl.
    by replace (k + S (k + 0)) with (S (k + (k + 0))) by lia.
Qed.

(** The tokens of an even-length string determine it. *)
Lemma byte_tokens_inj (n : nat) (h1 h2 : string) :
  String.length h1 = 2 * n → String.length h2 mod 2 = 0 →
  byte_tokens h1 = byte_tokens h2 → h1 = h2.
Proof.
  revert h1 h2; induction n as [|n IH]; intros h1 h2 Hlen Hev Htokens.
  - destruct h1; [|done].
    apply (f_equal length) in Htokens. rewrite !length_byte_tokens in Htokens.
    change (String.length "") with 0 in Htokens.
    assert (String.length h2 = 0) as Hnil by lia. by destruct h2.
  - destruct h1 as [|a [|b h1]]; simpl in Hlen; try lia.
    rewrite byte_tokens_cons in Htokens.
    destruct h2 as [|a' [|b' h2]]; [done | done |].
    rewrite byte_tokens_cons in Htokens. injection Htokens as -> -> Htokens.
    do 2 f_equal. apply IH; [lia | | done].
    cbn [String.length] in Hev. lia.
Qed.

Lemma app_inj_length (s1 s2 t1 t2 : string) :
  String.length s1 = String.length s2 →
  s1 +:+ t1 = s2 +:+ t2 → s1 = s2 ∧ t1 = t2.
Proof.
  revert s2; induction s1 as [|c s1 IH]; intros [|c' s2] Hlen Heq;
    simpl in Hlen; try lia.
  - by rewrite !app_nil_l in Heq.
  - rewrite !app_cons in Heq. injection Heq as -> Heq.
    destruct (IH s2) as [-> ->]; [lia | done | done].
Qed.

(** Two lists of four-character tokens with the same formatted text are the
    same list. *)
Lemma joined_inj (l1 l2 : list string) (i : nat) :
  Forall (λ token, String.length token = 4) l1 →
  Forall (λ token, String.length token = 4) l2 →
  joined i l1 = joined i l2 → l1 = l2.
Proof.
  intros Hl1. revert l2 i.
  induction Hl1 as [|t1 l1 Ht1 Hl1 IH]; intros l2 i Hl2 Heq.
  - destruct Hl2 as [|t2 l2 Ht2 Hl2]; [done|]. exfalso.
    apply (f_equal String.length) in Heq.
    destruct l2; [rewrite joined_one in Heq | rewrite joined_cons in Heq];
      rewrite !length_app in Heq; simpl in Heq; lia.
  - destruct Hl2 as [|t2 l2 Ht2 Hl2].
    { exfalso. apply (f_equal String.length) in Heq.
      destruct l1; [rewrite joined_one in Heq | rewrite joined_cons in Heq];
        rewrite !length_app in Heq; simpl in Heq; lia. }
    destruct l1 as [|t1' l1], l2 as [|t2' l2];
      rewrite ?joined_one, ?joined_cons in Heq;
      apply (inj (String.app (line_break i))) in Heq.
    + rewrite <- (app_empty_r t1), <- (app_empty_r t2) in Heq.
      apply app_inj_length in Heq as [-> _]; [done | congruence].
    + exfalso. apply (f_equal String.length) in Heq.
      rewrite !length_app in Heq. simpl in Heq. lia.
    + exfalso. apply (f_equal String.length) in Heq.
      rewrite !length_app in Heq. simpl in Heq. lia.
    + apply app_inj_length in Heq as [-> Heq]; [|congruence].
      apply (inj (String.app ", ")) in Heq.
      f_equal. by apply (IH _ (S i)).
Qed.

(** The length of the formatted text of four-character tokens. *)
Lemma length_joined (l : list string) (i : nat) :
  Forall (λ token, String.length token = 4) l → l ≠ [] →
  String.length (joined i l) + row_start i + 2 = row_start (i + length l).
Proof.
  intros Hl. revert i. induction Hl as [|t l Ht Hl IH]; intros i Hne;
    [done|].
  destruct l as [|t' l].
  - rewrite joined_one, length_app, Ht. simpl length.
    replace (i + 1) with (S i) by lia. rewrite row_start_S. lia.
  - rewrite joined_cons, !length_app, Ht.
    specialize (IH (S i) ltac:(done)). simpl length in *.
    replace (i + S (S (length l))) with (S i + S (length l)) by lia.
    rewrite <- IH, row_start_S. simpl. lia.
Qed.

End formatter_more.

Section runs_more.

Lemma io_bind_ok {A B} (m : io A) (f : A → io B)
    (stdout stdout' : list string) (a : A) :
  m stdout = (stdout', inr a) → (m ≫= f) stdout = f a stdout'.
Proof. intros Hm. unfold mbind, io_mbind, io_bind. by rewrite Hm. Qed.

Lemma io_bind_raise {A B} (m : io A) (f : A → io B)
    (stdout stdout' : list string) (e : exception) :
  m stdout = (stdout', inl e) → (m ≫= f) stdout = (stdout', inl e).
Proof. intros Hm. unfold mbind, io_mbind, io_bind. by rewrite Hm. Qed.

Lemma print_constant_odd (name trailer key h : string)
    (hashes : gmap string string) (stdout : list string) :
  hashes !! key = Some h → String.length h mod 2 ≠ 0 →
  print_constant name trailer hashes key stdout
  = (stdout, inl (odd_length_error h)).
Proof.
  intros Hkey Hodd.
  unfold print_constant, mbind, io_mbind, io_bind, call, getitem.
  by rewrite Hkey, format_hex_string_odd.
Qed.

Lemma format_hex_string_cases (h : string) :
  (String.length h mod 2 = 0 ∧ ∃ body, format_hex_string h = inr body)
  ∨ (String.length h mod 2 ≠ 0
     ∧ format_hex_string h = inl (odd_length_error h)).
Proof.
  destruct (decide (String.length h mod 2 = 0)) as [Hev|Hodd].
  - left. split; [done|]. rewrite format_hex_string_even by done. eauto.
  - right. split; [done|]. by apply format_hex_string_odd.
Qed.

Lemma formatted_even (hashes : gmap string string) (key h : string) :
  hashes !! key = Some h → String.length h mod 2 = 0 →
  ∃ body, formatted hashes key = inr body
          ∧ format_hex_string h = inr body.
Proof.
  intros Hkey Hev. unfold formatted, getitem. rewrite Hkey.
  rewrite format_hex_string_even by done. eauto.
Qed.

Lemma expected_lookups (hashes : gmap string string) :
  dom hashes = expected_partitions →
  ∃ kernel normal debug,
    hashes !! PARTITION_NAME_BOOT = Some kernel
    ∧ hashes !! PARTITION_NAME_INITRD_NORMAL = Some normal
    ∧ hashes !! PARTITION_NAME_INITRD_DEBUG = Some debug.
Proof.
  intros Hdom.
  assert (∀ name, name ∈ expected_partitions → is_Some (hashes !! name))
    as Hsome by (intros name; rewrite <- Hdom; apply elem_of_dom).
  destruct (Hsome PARTITION_NAME_BOOT) as [kernel ?];
    [expected_key|].
  destruct (Hsome PARTITION_NAME_INITRD_NORMAL) as [normal ?];
    [expected_key|].
  destruct (Hsome PARTITION_NAME_INITRD_DEBUG) as [debug ?];
    [expected_key|].
  eauto 10.
Qed.

Lemma format_hex_string_nil : format_hex_string "" = inr "".
Proof. reflexivity. Qed.

(** The run after a successful collection that takes the fallback. *)
Lemma run_fallback (popen : list string → process)
    (avbtool kernel_image_path : string) (rest : list string)
    (hashes : gmap string string) :
  collect_hashes popen avbtool kernel_image_path = inr hashes →
  dom hashes ≠ expected_partitions →
  run popen (avbtool :: kernel_image_path :: rest) = (fallback_file, inr tt).
Proof.
  intros Hcollect Hdom. rewrite run_unfold, Hcollect.
  pose proof (proj2 (fallback_taken_true hashes) Hdom) as Htaken.
  unfold fallback_policy. rewrite Htaken.
  assert (∀ name, name ∈ expected_partitions →
                  force_empty hashes !! name = Some "") as Hlookup
    by (intros name; apply lookup_force_empty).
  do 2 (erewrite io_bind_ok;
          [|eapply print_constant_ok;
            [apply Hlookup; expected_key | apply format_hex_string_nil]]).
  erewrite print_constant_ok;
    [|apply Hlookup; expected_key | apply format_hex_string_nil].
  reflexivity.
Qed.

(** The run after a successful collection that does not take the fallback,
    before the three declarations. *)
Lemma run_expected (popen : list string → process)
    (avbtool kernel_image_path : string) (rest : list string)
    (hashes : gmap string string) :
  collect_hashes popen avbtool kernel_image_path = inr hashes →
  dom hashes = expected_partitions →
  run popen (avbtool :: kernel_image_path :: rest)
  = (print_constant "KERNEL_HASH" Py.nl hashes PARTITION_NAME_BOOT;;
     print_constant "INITRD_NORMAL_HASH" Py.nl hashes
       PARTITION_NAME_INITRD_NORMAL;;
     print_constant "INITRD_DEBUG_HASH" "" hashes
       PARTITION_NAME_INITRD_DEBUG) (partial_file []).
Proof.
  intros Hcollect Hdom. rewrite run_unfold, Hcollect.
  pose proof (proj2 (fallback_taken_false hashes) Hdom) as Htaken.
  unfold fallback_policy. by rewrite Htaken.
Qed.

(** The three declarations raise nothing but the formatter's assertion,
    provided the three keys are in the dict. *)
Lemma print_constant_sequence_raises (hashes : gmap string string)
    (stdout out : list string) (e : exception) :
  (print_constant "KERNEL_HASH" Py.nl (fallback_policy hashes)
     PARTITION_NAME_BOOT;;
   print_constant "INITRD_NORMAL_HASH" Py.nl (fallback_policy hashes)
     PARTITION_NAME_INITRD_NORMAL;;
   print_constant "INITRD_DEBUG_HASH" "" (fallback_policy hashes)
     PARTITION_NAME_INITRD_DEBUG) stdout = (out, inl e) →
  ∃ h, e = odd_length_error h.
Proof.
  assert (∀ name trailer key stdout out,
            key ∈ expected_partitions →
            print_constant name trailer (fallback_policy hashes) key stdout
            = (out, inl e) →
            ∃ h, e = odd_length_error h) as Hone.
  { intros name trailer key stdout0 out0 Hkey Hraise.
    apply print_constant_raises in Hraise as [_ [Hget|(h & Hh & Hfmt)]].
    - exfalso. unfold getitem in Hget.
      assert (is_Some (fallback_policy hashes !! key)) as [d Hd].
      { apply elem_of_dom. unfold fallback_policy.
        destruct (fallback_taken hashes) eqn:Htaken.
        - rewrite dom_force_empty. by apply elem_of_union_r.
        - apply fallback_taken_false in Htaken. by rewrite Htaken. }
      by rewrite Hd in Hget.
    - exists h. destruct (format_hex_string_cases h) as [[_ [? Hok]]|[_ Hbad]];
        congruence. }
  intros Hrun.
  destruct (print_constant "KERNEL_HASH" Py.nl (fallback_policy hashes)
              PARTITION_NAME_BOOT stdout) as [out1 [e1|[]]] eqn:H1.
  { rewrite (io_bind_raise _ _ _ _ _ H1) in Hrun. simplify_eq.
    eapply Hone; [|done]. expected_key. }
  rewrite (io_bind_ok _ _ _ _ _ H1) in Hrun.
  destruct (print_constant "INITRD_NORMAL_HASH" Py.nl (fallback_policy hashes)
              PARTITION_NAME_INITRD_NORMAL out1) as [out2 [e2|[]]] eqn:H2.
  { rewrite (io_bind_raise _ _ _ _ _ H2) in Hrun. simplify_eq.
    eapply Hone; [|done]. expected_key. }
  rewrite (io_bind_ok _ _ _ _ _ H2) in Hrun.
  eapply Hone; [|done]. expected_key.
Qed.

End runs_more.

Section outcomes.

(** The run that does not take the fallback, in full: the declarations are
    printed one by one until a digest fails the formatter's assertion. *)
Lemma run_expected_outcome (popen : list string → process)
    (avbtool kernel_image_path : string) (rest : list string)
    (hashes : gmap string string) (kernel normal debug : string) :
  collect_hashes popen avbtool kernel_image_path = inr hashes →
  dom hashes = expected_partitions →
  hashes !! PARTITION_NAME_BOOT = Some kernel →
  hashes !! PARTITION_NAME_INITRD_NORMAL = Some normal →
  hashes !! PARTITION_NAME_INITRD_DEBUG = Some debug →
  run popen (avbtool :: kernel_image_path :: rest)
  = match format_hex_string kernel with
    | inl e => (partial_file [], inl e)
    | inr bk =>
        match format_hex_string normal with
        | inl e => (partial_file [bk], inl e)
        | inr bn =>
            match format_hex_string debug with
            | inl e => (partial_file [bk; bn], inl e)
            | inr bd =>
                (printed (header
                          ++ [ declaration "KERNEL_HASH" bk +:+ Py.nl;
                               declaration "INITRD_NORMAL_HASH" bn +:+ Py.nl;
                               declaration "INITRD_DEBUG_HASH" bd ]),
                 inr tt)
            end
        end
    end.
Proof.
  intros Hcollect Hdom Hk Hn Hd. rewrite (run_expected _ _ _ _ _ Hcollect Hdom).
  unfold print_constant, mbind, io_mbind, io_bind, call, getitem, print.
  rewrite Hk, Hn, Hd.
  destruct (format_hex_string kernel) as [e|bk]; [done|].
  destruct (format_hex_string normal) as [e|bn]; [done|].
  destruct (format_hex_string debug) as [e|bd]; [done|].
  unfold partial_file, printed. simpl. by rewrite app_empty_r.
Qed.

End outcomes.

(** *** The collector as a whole *)

(** X1.  The keys of the collected dict are exactly the names of the accepted
    lines: a name is a key when, and only when, some line of the tool's output
    splits (spaces removed) into that name and a digest. *)
Theorem parse_output_keys (text name : string) :
  name ∈ dom (parse_output text)
  ↔ ∃ line digest,
      line ∈ Py.split Py.LF text
      ∧ Py.split ":" (Py.replace " " "" line) = [name; digest].
Proof.
  rewrite elem_of_dom, parse_output_lines. split.
  - intros [digest Hsome].
    apply collect_lines_lookup in Hsome as [?|(line & ? & ?)]; [done|].
    by exists line, digest.
  - intros (line & digest & Hin & Hsplit).
    apply list_elem_of_split in Hin as (before & after & ->).
    rewrite collect_lines_app. simpl.
    apply collect_lines_keeps.
    rewrite (collect_line_pair _ _ _ _ Hsplit), lookup_insert_eq. eauto.
Qed.

(** X2.  When a name is given on several lines the last one wins: the dict
    maps the name to the digest of the accepted line after which no line
    gives that name again. *)
Theorem parse_output_last_wins (text : string) (before after : list string)
    (line name digest : string) :
  Py.split Py.LF text = before ++ line :: after →
  Py.split ":" (Py.replace " " "" line) = [name; digest] →
  (∀ later other, later ∈ after →
     Py.split ":" (Py.replace " " "" later) ≠ [name; other]) →
  parse_output text !! name = Some digest.
Proof.
  intros Hlines Hline Hafter.
  rewrite parse_output_lines, Hlines, collect_lines_app. simpl.
  fold (collect_lines (collect_line (collect_lines ∅ before) line) after).
  rewrite collect_lines_other by done.
  rewrite (collect_line_pair _ _ _ _ Hline). apply lookup_insert_eq.
Qed.

Lemma parse_output_last_wins_witness :
  parse_output repeated_digest !! "boot" = Some "bb".
Proof.
  apply (parse_output_last_wins repeated_digest
           ["boot: aa"] ["initrd_normal: cc"] "boot: bb" "boot" "bb").
  - reflexivity.
  - reflexivity.
  - intros later other ->%list_elem_of_singleton. vm_compute. discriminate.
Defined.

(** X3.  The collected dict is empty exactly when no line of the output holds
    exactly one colon; an output without digest lines therefore leads to the
    fallback. *)
Theorem parse_output_empty_iff (text : string) :
  parse_output text = ∅
  ↔ ∀ line, line ∈ Py.split Py.LF text → count ":" line ≠ 1.
Proof.
  split.
  - intros Hempty line Hin Hcount.
    apply segments_one_colon in Hcount.
    destruct (Py.split ":" (Py.replace " " "" line))
      as [|name [|digest [|x l]]] eqn:Hsplit; try done.
    assert (name ∈ dom (parse_output text)) as Hdom.
    { rewrite elem_of_dom, parse_output_lines.
      apply list_elem_of_split in Hin as (before & after & ->).
      rewrite collect_lines_app. simpl. apply collect_lines_keeps.
      rewrite (collect_line_pair _ _ _ _ Hsplit), lookup_insert_eq. eauto. }
    by rewrite Hempty, dom_empty_L in Hdom.
  - intros Hlines. apply map_eq; intros name. rewrite lookup_empty.
    apply eq_None_not_Some. intros [digest Hsome].
    rewrite parse_output_lines in Hsome.
    apply collect_lines_lookup in Hsome as [?|(line & Hin & Hsplit)];
      [done|].
    apply (Hlines line Hin), segments_one_colon. by rewrite Hsplit.
Qed.

(** X4.  No partition name and no digest of the collected dict holds a space,
    a colon or a newline. *)
Theorem parse_output_clean (text name digest : string) (c : ascii) :
  delimiter c →
  parse_output text !! name = Some digest →
  contains c name = false ∧ contains c digest = false.
Proof.
  intros Hc Hsome. rewrite parse_output_lines in Hsome.
  apply collect_lines_lookup in Hsome as [?|(line & Hin & Hsplit)]; [done|].
  apply (segments_clean line); [|done..]. by eapply split_no_sep.
Qed.

Lemma parse_output_clean_witness :
  contains ":" "initrd_debug" = false ∧ contains ":" "cc33" = false.
Proof.
  apply (parse_output_clean three_digests "initrd_debug" "cc33" ":").
  - right; left; reflexivity.
  - vm_compute. reflexivity.
Defined.

(** X5.  Spaces in the tool's output never matter: two outputs that are equal
    once their spaces are removed give the same dict. *)
Theorem parse_output_ignores_spaces (text text' : string) :
  Py.replace " " "" text = Py.replace " " "" text' →
  parse_output text = parse_output text'.
Proof.
  intros Hsame.
  assert (∀ t, parse_output t = parse_output (Py.replace " " "" t)) as Hstrip.
  { intros t. rewrite !parse_output_lines, split_replace by done.
    symmetry. apply collect_lines_spaces. }
  by rewrite (Hstrip text), (Hstrip text'), Hsame.
Qed.

Lemma parse_output_ignores_spaces_witness :
  parse_output "boot: aa11" = parse_output "  boot :aa 11".
Proof.
  apply (parse_output_ignores_spaces "boot: aa11" "  boot :aa 11").
  reflexivity.
Defined.

(** *** The formatter as a whole *)

(** X6.  The formatter loses nothing: two strings it formats to the same text
    are the same string. *)
Theorem format_hex_string_inj (h1 h2 out : string) :
  format_hex_string h1 = inr out → format_hex_string h2 = inr out → h1 = h2.
Proof.
  intros H1 H2.
  destruct (decide (String.length h1 mod 2 = 0)) as [Hev1|Hodd];
    [|by rewrite format_hex_string_odd in H1].
  destruct (decide (String.length h2 mod 2 = 0)) as [Hev2|Hodd];
    [|by rewrite format_hex_string_odd in H2].
  rewrite format_hex_string_even in H1, H2 by done.
  rewrite <- H2 in H1. injection H1 as Heq.
  apply (byte_tokens_inj (String.length h1 / 2));
    [by apply even_length_half | done |].
  apply (joined_inj _ _ 0); [by apply byte_tokens_four..|done].
Qed.

Lemma format_hex_string_inj_witness :
  format_hex_string "aa11" = inr (Py.nl +:+ "0xaa, 0x11") ∧ "aa11" = "aa11".
Proof.
  split; [reflexivity|].
  apply (format_hex_string_inj "aa11" "aa11" (Py.nl +:+ "0xaa, 0x11"));
    reflexivity.
Defined.

(** X7.  The text the formatter returns for [n] bytes has six characters per
    byte, less the two of the separator that the last byte lacks, and one
    line break per row of sixteen bytes begun. *)
Theorem format_hex_string_length (h out : string) :
  format_hex_string h = inr out →
  String.length out
  = 6 * (String.length h / 2) + (String.length h / 2 + 15) / 16 - 2.
Proof.
  intros Hout.
  destruct (decide (String.length h mod 2 = 0)) as [Hev|Hodd];
    [|by rewrite format_hex_string_odd in Hout].
  rewrite format_hex_string_even in Hout by done. injection Hout as <-.
  destruct (decide (String.length h / 2 = 0)) as [Hzero|Hpos].
  - assert (byte_tokens h = []) as ->
      by (unfold byte_tokens; by rewrite Hzero).
    by rewrite Hzero.
  - pose proof (length_joined (byte_tokens h) 0 (byte_tokens_four h Hev))
      as Hlen.
    rewrite length_byte_tokens in Hlen.
    unfold joined, row_start in Hlen. cbn [Nat.add] in Hlen.
    assert (byte_tokens h ≠ []) as Hne.
    { intros Hnil%(f_equal length). by rewrite length_byte_tokens in Hnil. }
    specialize (Hlen Hne). lia.
Qed.

Lemma format_hex_string_length_witness :
  String.length (Py.nl +:+ "0xaa, 0x11")
  = 6 * (String.length "aa11" / 2) + (String.length "aa11" / 2 + 15) / 16 - 2.
Proof.
  apply (format_hex_string_length "aa11" (Py.nl +:+ "0xaa, 0x11")).
  reflexivity.
Defined.

(** *** Runs of main *)

(** X8.  A run raises [IndexError] exactly when it is given fewer than two
    arguments: with fewer than two it raises [IndexError] having printed
    nothing, whatever the tool would answer, and with two or more it never
    raises [IndexError]. *)
Theorem run_index_error (popen : list string → process)
    (args : list string) :
  (length args < 2 → run popen args = ([], inl IndexError))
  ∧ (∀ out, run popen args = (out, inl IndexError) → length args < 2).
Proof.
  split; [apply run_too_few_args|].
  intros out Hrun.
  destruct args as [|avbtool [|kernel_image_path rest]];
    [simpl; lia..|].
  exfalso. rewrite run_unfold in Hrun.
  destruct (collect_hashes popen avbtool kernel_image_path)
    as [e|hashes] eqn:Hcollect.
  - unfold collect_hashes in Hcollect.
    destruct (popen _) as [|rc [text|]]; simplify_eq.
  - apply print_constant_sequence_raises in Hrun. by destruct Hrun as [h ?].
Qed.

Lemma run_index_error_witness :
  run failing_tool ["avbtool"] = ([], inl IndexError)
  ∧ run (λ _, LaunchFailed) [] = ([], inl IndexError).
Proof.
  split.
  - apply (proj1 (run_index_error failing_tool ["avbtool"])). simpl. lia.
  - apply (proj1 (run_index_error (λ _, LaunchFailed) [])). simpl. lia.
Defined.

(** X9.  The run depends on the tool only through one invocation, with the
    argument vector [avbtool print_partition_digests --image path]; arguments
    of the script after the second are ignored. *)
Theorem run_one_invocation (popen popen' : list string → process)
    (avbtool kernel_image_path : string) (rest : list string) :
  popen [avbtool; "print_partition_digests"; "--image"; kernel_image_path]
  = popen' [avbtool; "print_partition_digests"; "--image"; kernel_image_path] →
  run popen (avbtool :: kernel_image_path :: rest)
  = run popen' [avbtool; kernel_image_path].
Proof.
  intros Hsame. rewrite !run_unfold. unfold collect_hashes. by rewrite Hsame.
Qed.

Lemma run_one_invocation_witness :
  run strict_tool ["avbtool"; "kernel.img"; "--verbose"]
  = run (λ _, Completed 0 (Some three_digests)) ["avbtool"; "kernel.img"].
Proof.
  apply (run_one_invocation strict_tool (λ _, Completed 0 (Some three_digests))
           "avbtool" "kernel.img" ["--verbose"]).
  reflexivity.
Defined.

(** X10.  Whenever the keys collected from the tool's output are not exactly
    the three expected names, the run ends normally and has printed one fixed
    file: the header, the comment and three empty arrays, whatever the tool
    printed or returned. *)
Theorem run_fallback_output (popen : list string → process)
    (avbtool kernel_image_path text : string) (rest : list string)
    (returncode : Z) :
  popen [avbtool; "print_partition_digests"; "--image"; kernel_image_path]
  = Completed returncode (Some text) →
  dom (parse_output text) ≠ expected_partitions →
  run popen (avbtool :: kernel_image_path :: rest) = (fallback_file, inr tt).
Proof.
  intros Hp Hdom. apply (run_fallback _ _ _ _ (parse_output text)); [|done].
  unfold collect_hashes. by rewrite Hp.
Qed.

Lemma run_fallback_output_witness :
  run failing_tool ["avbtool"; "kernel.img"] = (fallback_file, inr tt).
Proof.
  apply (run_fallback_output failing_tool "avbtool" "kernel.img"
           "avbtool: Given image does not look like a vbmeta image." [] 1).
  - reflexivity.
  - vm_compute. discriminate.
Defined.

(** X11.  A run ends normally exactly when it has two arguments, the tool was
    launched and its output decoded, and either the fallback is taken or
    every collected digest has even length. *)
Theorem run_succeeds_iff (popen : list string → process)
    (args : list string) :
  (∃ out, run popen args = (out, inr tt))
  ↔ ∃ avbtool kernel_image_path rest hashes,
      args = avbtool :: kernel_image_path :: rest
      ∧ collect_hashes popen avbtool kernel_image_path = inr hashes
      ∧ (dom hashes = expected_partitions →
         ∀ key digest, hashes !! key = Some digest →
                       String.length digest mod 2 = 0).
Proof.
  split.
  - intros [out Hrun].
    destruct args as [|avbtool [|kernel_image_path rest]];
      [by rewrite run_too_few_args in Hrun by (simpl; lia)..|].
    destruct (collect_hashes popen avbtool kernel_image_path)
      as [e|hashes] eqn:Hcollect;
      [by rewrite run_unfold, Hcollect in Hrun|].
    exists avbtool, kernel_image_path, rest, hashes.
    do 2 (split; [done|]). intros Hdom key digest Hkey.
    destruct (expected_lookups hashes Hdom) as (dk & dn & dd & Hk & Hn & Hd).
    rewrite (run_expected_outcome _ _ _ _ _ _ _ _ Hcollect Hdom Hk Hn Hd)
      in Hrun.
    assert (key ∈ expected_partitions) as Hin
      by (rewrite <- Hdom; apply elem_of_dom; eauto).
    destruct (format_hex_string_cases dk) as [[Hek [bk Hbk]]|[_ Hbad]];
      [rewrite Hbk in Hrun | by rewrite Hbad in Hrun].
    destruct (format_hex_string_cases dn) as [[Hen [bn Hbn]]|[_ Hbad]];
      [rewrite Hbn in Hrun | by rewrite Hbad in Hrun].
    destruct (format_hex_string_cases dd) as [[Hed [bd Hbd]]|[_ Hbad]];
      [|by rewrite Hbad in Hrun].
    revert Hin. unfold expected_partitions.
    rewrite !elem_of_union, !elem_of_singleton.
    intros [[->| ->]| ->]; congruence.
  - intros (avbtool & kernel_image_path & rest & hashes & -> & Hcollect & Hev).
    destruct (decide (dom hashes = expected_partitions)) as [Hdom|Hdom];
      [|rewrite (run_fallback _ _ _ _ _ Hcollect Hdom); eauto].
    destruct (expected_lookups hashes Hdom) as (dk & dn & dd & Hk & Hn & Hd).
    rewrite (run_expected_outcome _ _ _ _ _ _ _ _ Hcollect Hdom Hk Hn Hd).
    rewrite !format_hex_string_even by eauto. eauto.
Qed.

(** X12.  Every run that raises is of one of two kinds.  Either nothing has
    been printed, and the exception is [IndexError] for fewer than two
    arguments or the [OSError] or [UnicodeDecodeError] of the collection.  Or
    the fallback was not taken and the formatter's assertion failed on the
    odd-length digest of one of the three keys: then the header and the
    declarations of the keys before it have been printed, and nothing else.
    A run never raises [KeyError]. *)
Theorem run_failure (popen : list string → process)
    (args out : list string) (e : exception) :
  run popen args = (out, inl e) →
  (out = []
   ∧ (e = IndexError ∧ length args < 2
      ∨ ∃ avbtool kernel_image_path rest,
          args = avbtool :: kernel_image_path :: rest
          ∧ collect_hashes popen avbtool kernel_image_path = inl e
          ∧ (e = OSError ∨ e = UnicodeDecodeError)))
  ∨ ∃ avbtool kernel_image_path rest hashes printed_keys key later bodies h,
      args = avbtool :: kernel_image_path :: rest
      ∧ collect_hashes popen avbtool kernel_image_path = inr hashes
      ∧ dom hashes = expected_partitions
      ∧ constant_keys = printed_keys ++ key :: later
      ∧ Forall2 (λ k body, formatted hashes k = inr body) printed_keys bodies
      ∧ hashes !! key = Some h
      ∧ String.length h mod 2 ≠ 0
      ∧ e = odd_length_error h
      ∧ out = partial_file bodies.
Proof.
  intros Hrun.
  destruct args as [|avbtool [|kernel_image_path rest]].
  1,2: rewrite run_too_few_args in Hrun by (simpl; lia);
       injection Hrun as <- <-; left; split; [done|]; left;
       split; [done | simpl; lia].
  destruct (collect_hashes popen avbtool kernel_image_path)
    as [e'|hashes] eqn:Hcollect.
  { rewrite run_unfold, Hcollect in Hrun. injection Hrun as <- <-.
    left. split; [done|]. right. exists avbtool, kernel_image_path, rest.
    do 2 (split; [done|]). unfold collect_hashes in Hcollect.
    destruct (popen _) as [|rc [text|]]; simplify_eq; auto. }
  destruct (decide (dom hashes = expected_partitions)) as [Hdom|Hdom];
    [|by rewrite (run_fallback _ _ _ _ _ Hcollect Hdom) in Hrun].
  right. exists avbtool, kernel_image_path, rest, hashes.
  destruct (expected_lookups hashes Hdom) as (dk & dn & dd & Hk & Hn & Hd).
  rewrite (run_expected_outcome _ _ _ _ _ _ _ _ Hcollect Hdom Hk Hn Hd)
    in Hrun.
  destruct (format_hex_string_cases dk) as [[Hek [bk Hbk]]|[Hodd Hbad]].
  2:{ rewrite Hbad in Hrun. injection Hrun as <- <-.
      exists [], PARTITION_NAME_BOOT,
        [PARTITION_NAME_INITRD_NORMAL; PARTITION_NAME_INITRD_DEBUG], [], dk.
      by repeat split. }
  rewrite Hbk in Hrun.
  assert (formatted hashes PARTITION_NAME_BOOT = inr bk) as Hfk
    by (unfold formatted, getitem; by rewrite Hk).
  destruct (format_hex_string_cases dn) as [[Hen [bn Hbn]]|[Hodd Hbad]].
  2:{ rewrite Hbad in Hrun. injection Hrun as <- <-.
      exists [PARTITION_NAME_BOOT], PARTITION_NAME_INITRD_NORMAL,
        [PARTITION_NAME_INITRD_DEBUG], [bk], dn.
      repeat split; try done. by repeat constructor. }
  rewrite Hbn in Hrun.
  assert (formatted hashes PARTITION_NAME_INITRD_NORMAL = inr bn) as Hfn
    by (unfold formatted, getitem; by rewrite Hn).
  destruct (format_hex_string_cases dd) as [[Hed [bd Hbd]]|[Hodd Hbad]];
    [by rewrite Hbd in Hrun|].
  rewrite Hbad in Hrun. injection Hrun as <- <-.
  exists [PARTITION_NAME_BOOT; PARTITION_NAME_INITRD_NORMAL],
    PARTITION_NAME_INITRD_DEBUG, [], [bk; bn], dd.
  repeat split; try done. by repeat constructor.
Qed.

Lemma run_failure_witness :
  run (λ _, Completed 0 (Some odd_digest)) ["avbtool"; "kernel.img"]
  = (partial_file [Py.nl +:+ "0xaa"], inl (odd_length_error "bbb"))
  ∧ ((partial_file [Py.nl +:+ "0xaa"] = []
      ∧ (odd_length_error "bbb" = IndexError
         ∧ length ["avbtool"; "kernel.img"] < 2
         ∨ ∃ avbtool kernel_image_path rest,
             ["avbtool"; "kernel.img"] = avbtool :: kernel_image_path :: rest
             ∧ collect_hashes (λ _, Completed 0 (Some odd_digest))
                 avbtool kernel_image_path = inl (odd_length_error "bbb")
             ∧ (odd_length_error "bbb" = OSError
                ∨ odd_length_error "bbb" = UnicodeDecodeError)))
     ∨ ∃ avbtool kernel_image_path rest hashes printed_keys key later bodies h,
         ["avbtool"; "kernel.img"] = avbtool :: kernel_image_path :: rest
         ∧ collect_hashes (λ _, Completed 0 (Some odd_digest))
             avbtool kernel_image_path = inr hashes
         ∧ dom hashes = expected_partitions
         ∧ constant_keys = printed_keys ++ key :: later
         ∧ Forall2 (λ k body, formatted hashes k = inr body)
             printed_keys bodies
         ∧ hashes !! key = Some h
         ∧ String.length h mod 2 ≠ 0
         ∧ odd_length_error "bbb" = odd_length_error h
         ∧ partial_file [Py.nl +:+ "0xaa"] = partial_file bodies).
Proof.
  split; [vm_compute; reflexivity|].
  apply (run_failure (λ _, Completed 0 (Some odd_digest))
           ["avbtool"; "kernel.img"]).
  vm_compute. reflexivity.
Defined.
